(** * BT::basic_types — typed values, string conversion and port metadata

    A shallow embedding of [include/behaviortree_cpp/basic_types.h]:
    the three enumerations, the [convertFromString] / [toStr] template
    families, [PortInfo], [CreatePort] and the static discovery of
    [providedPorts].

    Conventions.
    - A C++ type argument [T] is a value of [CppType]; [typeid(T)] is the
      type itself, and a value of type [T] inhabits [cpp_value T].
    - A call either returns or throws, and may write to [std::cerr]; both
      are recorded in [Exec].
    - A [std::function] that may be empty is an [option].
    - A member function that mutates [*this] returns the new object next
      to the outcome of the call. *)

From Stdlib Require Import ZArith Ascii String List Lia.
From stdpp Require Import base decidable option list strings pretty gmap.

Local Open Scope string_scope.

(* ================================================================== *)
(** ** Enumerations *)

(** [enum class NodeType] *)
Inductive NodeType :=
| UNDEFINED | ACTION | CONDITION | CONTROL | DECORATOR | SUBTREE.

(** [enum class NodeStatus] *)
Inductive NodeStatus :=
| IDLE | RUNNING | SUCCESS | FAILURE | SKIPPED.

(** [enum class PortDirection] *)
Inductive PortDirection :=
| INPUT | OUTPUT | INOUT.

(** The enumerators' underlying values, as the header assigns them. *)
Definition NodeType_value (t : NodeType) : Z :=
  match t with
  | UNDEFINED => 0 | ACTION => 1 | CONDITION => 2
  | CONTROL => 3 | DECORATOR => 4 | SUBTREE => 5
  end.

Definition NodeStatus_value (s : NodeStatus) : Z :=
  match s with
  | IDLE => 0 | RUNNING => 1 | SUCCESS => 2 | FAILURE => 3 | SKIPPED => 4
  end.

Definition PortDirection_value (d : PortDirection) : Z :=
  match d with
  | INPUT => 0 | OUTPUT => 1 | INOUT => 2
  end.

(** [==] and [!=] on a scoped enumeration compare the underlying values. *)
Definition NodeStatus_eq (a b : NodeStatus) : bool :=
  (NodeStatus_value a =? NodeStatus_value b)%Z.

Definition NodeStatus_ne (a b : NodeStatus) : bool :=
  negb (NodeStatus_eq a b).

(** [isStatusActive]:
    [return status != NodeStatus::IDLE && status != NodeStatus::SKIPPED;] *)
Definition isStatusActive (status : NodeStatus) : bool :=
  NodeStatus_ne status IDLE && NodeStatus_ne status SKIPPED.

(** [isStatusCompleted]:
    [return status == NodeStatus::SUCCESS || status == NodeStatus::FAILURE;] *)
Definition isStatusCompleted (status : NodeStatus) : bool :=
  NodeStatus_eq status SUCCESS || NodeStatus_eq status FAILURE.

#[global] Instance NodeType_eq_dec : EqDecision NodeType.
Proof. solve_decision. Defined.
#[global] Instance NodeStatus_eq_dec : EqDecision NodeStatus.
Proof. solve_decision. Defined.
#[global] Instance PortDirection_eq_dec : EqDecision PortDirection.
Proof. solve_decision. Defined.

(* ================================================================== *)
(** ** C++ types and their values *)

(** The arithmetic types ([std::is_arithmetic_v]). *)
Inductive Arithmetic :=
| Bool
| Char | SignedChar | UnsignedChar
| Short | UnsignedShort
| Int | Unsigned
| Long | UnsignedLong
| LongLong | UnsignedLongLong
| Float | Double | LongDouble.

(** The types a template of the header can be instantiated at.  [TClass]
    stands for any other class type, identified by its name; its flag
    records whether a [StringView] can be constructed from it. *)
Inductive CppType :=
| TVoid
| TAnyTypeAllowed                 (* PortInfo::AnyTypeAllowed *)
| TArith (a : Arithmetic)
| TStdString                      (* std::string *)
| TConstCharPtr                   (* const char* *)
| TStringView                     (* std::string_view *)
| TVectorInt                      (* std::vector<int> *)
| TVectorDouble                   (* std::vector<double> *)
| TNodeStatus
| TNodeType
| TPortDirection
| TClass (name : string) (to_string_view : bool).

#[global] Instance Arithmetic_eq_dec : EqDecision Arithmetic.
Proof. solve_decision. Defined.
#[global] Instance CppType_eq_dec : EqDecision CppType.
Proof. solve_decision. Defined.

(** [std::type_index]: the identity of a type. *)
Definition type_index := CppType.
Definition typeid (T : CppType) : type_index := T.

Definition is_floating_point (a : Arithmetic) : bool :=
  match a with
  | Float | Double | LongDouble => true
  | _ => false
  end.

(** [std::is_arithmetic_v<T>] *)
Definition is_arithmetic (T : CppType) : bool :=
  match T with
  | TArith _ => true
  | _ => false
  end.

(** [std::is_constructible_v<StringView, T>] *)
Definition is_constructible_StringView (T : CppType) : bool :=
  match T with
  | TStdString | TConstCharPtr | TStringView => true
  | TClass _ to_string_view => to_string_view
  | _ => false
  end.

(** [std::is_same<T, void>::value] *)
Definition is_same_void (T : CppType) : bool :=
  match T with
  | TVoid => true
  | _ => false
  end.

(** Values of an arithmetic type: a [bool], the mathematical value of an
    integer, or the bit pattern of a floating-point number. *)
Definition arith_value (a : Arithmetic) : Type :=
  match a with
  | Bool => bool
  | _ => Z
  end.

(** Values of type [T].  [void] has none; the empty struct
    [AnyTypeAllowed] has one; an object of another class is its bytes. *)
Definition cpp_value (T : CppType) : Type :=
  match T with
  | TVoid => Empty_set
  | TAnyTypeAllowed => unit
  | TArith a => arith_value a
  | TStdString | TConstCharPtr | TStringView => string
  | TVectorInt | TVectorDouble => list Z
  | TNodeStatus => NodeStatus
  | TNodeType => NodeType
  | TPortDirection => PortDirection
  | TClass _ _ => list Byte.byte
  end.

(* ================================================================== *)
(** ** Calls: exceptions and [std::cerr] *)

(** The two exception classes of [behaviortree_cpp/exceptions.h] that
    the header throws, with their [what()]. *)
Inductive Exception :=
| LogicError (what : string)
| RuntimeError (what : string).

Inductive Result (A : Type) :=
| Returned (a : A)
| Thrown (e : Exception).
Arguments Returned {A} a.
Arguments Thrown {A} e.

(** A finished call: what it wrote to [std::cerr], and how it ended. *)
Record Exec (A : Type) := MkExec { cerr : string; outcome : Result A }.
Arguments MkExec {A} cerr outcome.
Arguments cerr {A} _.
Arguments outcome {A} _.

#[global] Instance Exec_ret : MRet Exec :=
  fun A a => MkExec "" (Returned a).

#[global] Instance Exec_throw : MThrow Exception Exec :=
  fun A e => MkExec "" (Thrown e).

#[global] Instance Exec_bind : MBind Exec :=
  fun A B f m =>
    match outcome m with
    | Returned a => MkExec (cerr m +:+ cerr (f a)) (outcome (f a))
    | Thrown e => MkExec (cerr m) (Thrown e)
    end.

(** [std::cerr << text] *)
Definition cerr_write (text : string) : Exec unit :=
  MkExec text (Returned tt).

(** ['\n'], also what [std::endl] writes. *)
Definition endl : string := String (ascii_of_nat 10) "".

(** A call is silent when it writes nothing and throws nothing. *)
Definition silent {A} (m : Exec A) : Prop :=
  cerr m = "" /\ exists a, outcome m = Returned a.

Definition throws {A} (m : Exec A) : Prop :=
  exists e, outcome m = Thrown e.

Definition is_LogicError (e : Exception) : bool :=
  match e with
  | LogicError _ => true
  | RuntimeError _ => false
  end.

(** [s] occurs in [text]. *)
Definition mentions (text s : string) : Prop :=
  exists before after, text = before +:+ s +:+ after.

(* ================================================================== *)
(** ** [BT::Any] *)

(** Modelled from the spec: [BT::Any] of [utils/safe_any.hpp], which is
    not among the sources.  A Value "holds one value of any type plus
    its type identity"; a default-constructed one is empty. *)
Inductive Any :=
| Any_empty
| Any_of (T : CppType) (v : cpp_value T).

(** [std::function<Any(StringView)>], possibly empty. *)
Definition StringConverter := option (string -> Exec Any).

(* ================================================================== *)
(** ** Canonical text of the enumerations *)

(** An enumeration with a textual vocabulary: its enumerators and the
    name of each. *)
Class CanonicalText (E : Type) := {
  enumerators : list E;
  canonical : E -> string;
  type_label : string
}.

(** Modelled from the spec: [toStr<NodeStatus>], [toStr<NodeType>] and
    [toStr<PortDirection>] are declared in the header and defined in
    [basic_types.cpp], which is not among the sources.  "Every
    enumerated value has exactly one canonical uppercase textual form";
    the vocabulary is the one of the spec's data model. *)
#[global] Instance NodeStatus_text : CanonicalText NodeStatus := {
  enumerators := [IDLE; RUNNING; SUCCESS; FAILURE; SKIPPED];
  canonical s :=
    match s with
    | IDLE => "IDLE" | RUNNING => "RUNNING" | SUCCESS => "SUCCESS"
    | FAILURE => "FAILURE" | SKIPPED => "SKIPPED"
    end;
  type_label := "NodeStatus"
}.

(** Modelled from the spec: [toStr<NodeType>] ([basic_types.cpp]); the
    canonical names of the six node kinds. *)
#[global] Instance NodeType_text : CanonicalText NodeType := {
  enumerators := [UNDEFINED; ACTION; CONDITION; CONTROL; DECORATOR; SUBTREE];
  canonical t :=
    match t with
    | UNDEFINED => "UNDEFINED" | ACTION => "ACTION"
    | CONDITION => "CONDITION" | CONTROL => "CONTROL"
    | DECORATOR => "DECORATOR" | SUBTREE => "SUBTREE"
    end;
  type_label := "NodeType"
}.

(** Modelled from the spec: [toStr<PortDirection>] ([basic_types.cpp]);
    the canonical names of the three directions. *)
#[global] Instance PortDirection_text : CanonicalText PortDirection := {
  enumerators := [INPUT; OUTPUT; INOUT];
  canonical d :=
    match d with
    | INPUT => "INPUT" | OUTPUT => "OUTPUT" | INOUT => "INOUT"
    end;
  type_label := "PortDirection"
}.

(** Modelled from the spec: the body of [convertFromString] at an
    enumeration ([basic_types.cpp]).  "Exact, case-sensitive match
    against the enum's canonical all-caps names; unmatched text fails
    with a descriptive error naming the offending value."  The wording
    of the message is not fixed by the spec. *)
Definition convertFromString_enum {E} `{CanonicalText E} (str : string)
  : Exec E :=
  match List.find (fun v => String.eqb str (canonical v)) enumerators with
  | Some v => mret v
  | None =>
      mthrow (RuntimeError
                ("convertFromString(): cannot convert to " +:+ type_label
                 +:+ " the text: " +:+ str))
  end.

(** Modelled from the spec: the three specialisations of [toStr] at
    the enumerations, each returning the canonical name. *)
Definition toStr_NodeStatus (status : NodeStatus) : string := canonical status.
Definition toStr_NodeType (type : NodeType) : string := canonical type.
Definition toStr_PortDirection (direction : PortDirection) : string :=
  canonical direction.

(** Modelled from the spec: the three specialisations of
    [convertFromString] at the enumerations, each the exact match
    above. *)
Definition convertFromString_NodeStatus : string -> Exec NodeStatus :=
  convertFromString_enum.
Definition convertFromString_NodeType : string -> Exec NodeType :=
  convertFromString_enum.
Definition convertFromString_PortDirection : string -> Exec PortDirection :=
  convertFromString_enum.

(** Modelled from the spec: [convertFromString<bool>], declared in the
    header under "This recognizes either 0/1, true/false, TRUE/FALSE"
    and defined in [basic_types.cpp].  "Accepts exactly "0", "1",
    "true", "false", "TRUE", "FALSE"; anything else fails" with a
    conversion error. *)
Definition convertFromString_bool (str : string) : Exec bool :=
  if String.eqb str "0" || String.eqb str "false" || String.eqb str "FALSE"
  then mret false
  else if String.eqb str "1" || String.eqb str "true" || String.eqb str "TRUE"
  then mret true
  else mthrow (RuntimeError "convertFromString(): invalid bool conversion").

(** An uppercase letter of the basic character set. *)
Definition is_upper (c : ascii) : bool :=
  (65 <=? nat_of_ascii c)%nat && (nat_of_ascii c <=? 90)%nat.

Definition all_uppercase (s : string) : bool :=
  forallb is_upper (list_ascii_of_string s).

(* ================================================================== *)
(** ** [PortInfo] *)

Record PortInfo := MkPortInfo {
  type_ : PortDirection;
  type_info_ : type_index;
  converter_ : StringConverter;
  description_ : string;
  default_value_ : Any;
  default_value_str_ : string;
  type_str_ : string
}.

(** [using PortsList = std::unordered_map<std::string, PortInfo>;] *)
Abbreviation PortsList := (gmap string PortInfo).

(** The parts of the program that the header only declares or includes,
    and whose behaviour the properties below do not depend on. *)
Record External := MkExternal {
  (** [BT::demangle]: the readable name of a type. *)
  demangle : type_index -> string;
  (** [std::to_string] at [float], [double] and [long double], on the
      bit pattern of the number. *)
  to_string_floating : Arithmetic -> Z -> string;
  (** The specialisations of [convertFromString] at the text, numeric
      and vector types, defined in [basic_types.cpp]. *)
  declared_convertFromString : forall T : CppType, string -> Exec (cpp_value T);
  (** [toStr<bool>] and [toStr<std::string>], defined in
      [basic_types.cpp]; both render every value. *)
  toStr_bool : bool -> string;
  toStr_std_string : string -> string;
  (** [PortInfo::parseString(const char* )] and
      [PortInfo::parseString(const std::string&)], defined in
      [basic_types.cpp]. *)
  parseString_c_str : PortInfo -> string -> Exec Any;
  parseString_std_string : PortInfo -> string -> Exec Any
}.

(** A sample of the external parts, to run the definitions on concrete
    inputs: types are named as they are spelled, floating-point numbers
    print as their bit pattern, the parsers defined elsewhere accept
    nothing, and [parseString] hands a text to the converter of the
    port when there is one. *)
Definition spelled (T : type_index) : string :=
  match T with
  | TVoid => "void"
  | TAnyTypeAllowed => "BT::PortInfo::AnyTypeAllowed"
  | TArith Bool => "bool"
  | TArith Int => "int"
  | TArith Double => "double"
  | TArith _ => "arithmetic"
  | TStdString => "std::string"
  | TConstCharPtr => "char const*"
  | TStringView => "std::string_view"
  | TVectorInt => "std::vector<int>"
  | TVectorDouble => "std::vector<double>"
  | TNodeStatus => "BT::NodeStatus"
  | TNodeType => "BT::NodeType"
  | TPortDirection => "BT::PortDirection"
  | TClass name _ => name
  end.

Definition sample : External := {|
  demangle := spelled;
  to_string_floating := fun _ bits => pretty bits;
  declared_convertFromString := fun T _ =>
    mthrow (RuntimeError "convertFromString(): not a number");
  toStr_bool := fun b => if b then "true" else "false";
  toStr_std_string := fun s => s;
  parseString_c_str := fun p str =>
    match converter_ p with
    | Some conv => conv str
    | None => mret Any_empty
    end;
  parseString_std_string := fun p str =>
    match converter_ p with
    | Some conv => conv str
    | None => mret Any_empty
    end
|}.

(** Closes a goal whose hypothesis [H] denies that a listed type is in
    the list of specialisations. *)
Ltac specialized_here H :=
  exfalso; apply H; apply list_elem_of_In; simpl; tauto.

(** Proves that a type is not in a list of specialisations. *)
Ltac not_specialized :=
  let Hin := fresh "Hin" in
  intros Hin; apply list_elem_of_In in Hin; simpl in Hin;
  repeat (destruct Hin as [Hin | Hin]; [discriminate Hin |]);
  exact Hin.

Section BasicTypes.

Variable ext : External.

(* ================================================================== *)
(** ** [convertFromString<T>] *)

(** The primary template: no specialisation was found for [T]. *)
Definition convertFromString_template (T : CppType) (str : string)
  : Exec (cpp_value T) :=
  let type_name := demangle ext (typeid T) in
  _ ← cerr_write
        ("You (maybe indirectly) called BT::convertFromString() for type ["
         +:+ type_name
         +:+ "], but I can't find the template specialization."
         +:+ endl +:+ endl);
  mthrow (LogicError
            (("You didn't implement the template specialization of "
              +:+ "convertFromString for this type: ") +:+ type_name)).

(** The types at which the header declares an explicit specialisation
    of [convertFromString]. *)
Definition convertFromString_specializations : list CppType :=
  [ TStdString; TConstCharPtr;
    TArith Int; TArith Unsigned; TArith Long; TArith UnsignedLong;
    TArith Float; TArith Double;
    TVectorInt; TVectorDouble;
    TArith Bool;
    TNodeStatus; TNodeType; TPortDirection ].

(** [convertFromString<T>(str)]: the specialisation at [T] when one is
    declared, the primary template otherwise. *)
Definition convertFromString (T : CppType) (str : string)
  : Exec (cpp_value T) :=
  match T return Exec (cpp_value T) with
  | TArith a =>
      match a return Exec (arith_value a) with
      | Bool => convertFromString_bool str
      | Int => declared_convertFromString ext (TArith Int) str
      | Unsigned => declared_convertFromString ext (TArith Unsigned) str
      | Long => declared_convertFromString ext (TArith Long) str
      | UnsignedLong => declared_convertFromString ext (TArith UnsignedLong) str
      | Float => declared_convertFromString ext (TArith Float) str
      | Double => declared_convertFromString ext (TArith Double) str
      | a' => convertFromString_template (TArith a') str
      end
  | TStdString => declared_convertFromString ext TStdString str
  | TConstCharPtr => declared_convertFromString ext TConstCharPtr str
  | TVectorInt => declared_convertFromString ext TVectorInt str
  | TVectorDouble => declared_convertFromString ext TVectorDouble str
  | TNodeStatus => convertFromString_NodeStatus str
  | TNodeType => convertFromString_NodeType str
  | TPortDirection => convertFromString_PortDirection str
  | T' => convertFromString_template T' str
  end.

(** [Any(value)] for a value of type [T]. *)
Definition Any_from (T : CppType) (value : cpp_value T) : Any := Any_of T value.

(** [GetAnyFromStringFunctor<T>()], with its specialisation at [void]. *)
Definition GetAnyFromStringFunctor (T : CppType) : StringConverter :=
  match T with
  | TVoid => None
  | _ =>
      if is_constructible_StringView T
      then Some (fun str => mret (Any_from TStringView str))
      else Some (fun str => v ← convertFromString T str; mret (Any_from T v))
  end.

(* ================================================================== *)
(** ** [toStr<T>] *)

(** Modelled from the spec: [StrCat] of [utils/strcat.hpp], which is
    not among the sources.  The fatal errors carry "a message naming
    the offending type": the pieces, one after the other. *)
Definition StrCat (pieces : list string) : string :=
  fold_right String.append "" pieces.

(** [std::to_string(value)] at an arithmetic type.  A [bool] or a
    character is promoted to [int]; an integer prints in decimal. *)
Definition std_to_string (a : Arithmetic) : arith_value a -> string :=
  match a return arith_value a -> string with
  | Bool => fun b => pretty (Z.b2z b)
  | Float => fun bits => to_string_floating ext Float bits
  | Double => fun bits => to_string_floating ext Double bits
  | LongDouble => fun bits => to_string_floating ext LongDouble bits
  | _ => fun z => pretty z
  end.

(** The primary template: [if constexpr(!std::is_arithmetic_v<T>)] it
    throws, else it returns [std::to_string(value)]. *)
Definition toStr_template (T : CppType) : cpp_value T -> Exec string :=
  match T return cpp_value T -> Exec string with
  | TArith a => fun value => mret (std_to_string a value)
  | T' => fun _ =>
      mthrow (LogicError
                (StrCat
                   [ "Function BT::toStr<T>() not specialized for type [";
                     demangle ext (typeid T'); "],";
                     "Implement it consistently with BT::convertFromString<T>(), "
                     +:+ "or provide at dummy version that returns an empty string." ]))
  end.

(** The types at which the header declares an explicit specialisation
    of [toStr]. *)
Definition toStr_specializations : list CppType :=
  [ TArith Bool; TStdString; TNodeStatus; TNodeType; TPortDirection ].

(** [BT::toStr(value)] for a value of type [T]. *)
Definition toStr (T : CppType) : cpp_value T -> Exec string :=
  match T return cpp_value T -> Exec string with
  | TArith a =>
      match a return arith_value a -> Exec string with
      | Bool => fun value => mret (toStr_bool ext value)
      | a' => toStr_template (TArith a')
      end
  | TStdString => fun value => mret (toStr_std_string ext value)
  | TNodeStatus => fun value => mret (toStr_NodeStatus value)
  | TNodeType => fun value => mret (toStr_NodeType value)
  | TPortDirection => fun value => mret (toStr_PortDirection value)
  | T' => toStr_template T'
  end.

(* ================================================================== *)
(** ** [PortInfo]: constructors and member functions *)

(** [PortInfo(PortDirection direction = PortDirection::INOUT)] *)
Definition PortInfo_untyped (direction : PortDirection) : PortInfo := {|
  type_ := direction;
  type_info_ := typeid TAnyTypeAllowed;
  converter_ := None;
  description_ := "";
  default_value_ := Any_empty;
  default_value_str_ := "";
  type_str_ := "AnyTypeAllowed"
|}.

(** [PortInfo(PortDirection direction, std::type_index type_info,
    StringConverter conv)] *)
Definition PortInfo_typed (direction : PortDirection) (type_info : type_index)
    (conv : StringConverter) : PortInfo := {|
  type_ := direction;
  type_info_ := type_info;
  converter_ := conv;
  description_ := "";
  default_value_ := Any_empty;
  default_value_str_ := "";
  type_str_ := demangle ext type_info
|}.

(** Modelled from the spec: the accessors [direction], [type],
    [typeName], [description], [defaultValue], [defaultValueString] and
    the mutator [setDescription] are declared in the header and defined
    in [basic_types.cpp]; each reads or writes the attribute of the
    port it is named after. *)
Definition direction (p : PortInfo) : PortDirection := type_ p.
Definition type (p : PortInfo) : type_index := type_info_ p.
Definition typeName (p : PortInfo) : string := type_str_ p.
Definition description (p : PortInfo) : string := description_ p.
Definition defaultValue (p : PortInfo) : Any := default_value_ p.
Definition defaultValueString (p : PortInfo) : string := default_value_str_ p.

(** Modelled from the spec: [setDescription], defined in
    [basic_types.cpp]; it sets the description text of the port. *)
Definition setDescription (p : PortInfo) (text : string) : PortInfo := {|
  type_ := type_ p;
  type_info_ := type_info_ p;
  converter_ := converter_ p;
  description_ := text;
  default_value_ := default_value_ p;
  default_value_str_ := default_value_str_ p;
  type_str_ := type_str_ p
|}.

(** [isStronglyTyped]: [return type_info_ != typeid(AnyTypeAllowed);] *)
Definition isStronglyTyped (p : PortInfo) : bool :=
  bool_decide (type_info_ p <> typeid TAnyTypeAllowed).

(** [converter]: [return converter_;] *)
Definition converter (p : PortInfo) : StringConverter := converter_ p.

(** The assignments of [setDefaultValue] to the two members. *)
Definition assign_default_value_ (p : PortInfo) (a : Any) : PortInfo := {|
  type_ := type_ p;
  type_info_ := type_info_ p;
  converter_ := converter_ p;
  description_ := description_ p;
  default_value_ := a;
  default_value_str_ := default_value_str_ p;
  type_str_ := type_str_ p
|}.

Definition assign_default_value_str_ (p : PortInfo) (s : string) : PortInfo := {|
  type_ := type_ p;
  type_info_ := type_info_ p;
  converter_ := converter_ p;
  description_ := description_ p;
  default_value_ := default_value_ p;
  default_value_str_ := s;
  type_str_ := type_str_ p
|}.

(** [setDefaultValue<T>(default_value)]:
    [default_value_ = Any(default_value);] then, inside a [try] whose
    only handler is the empty [catch(LogicError&)],
    [default_value_str_ = BT::toStr(default_value);].
    The result is the port after the call and the outcome of the call;
    an exception of another class leaves the handler. *)
Definition setDefaultValue (p : PortInfo) (T : CppType)
    (default_value : cpp_value T) : PortInfo * Exec unit :=
  let p1 := assign_default_value_ p (Any_from T default_value) in
  let rendering := toStr T default_value in
  match outcome rendering with
  | Returned text =>
      (assign_default_value_str_ p1 text, MkExec (cerr rendering) (Returned tt))
  | Thrown (LogicError _) =>
      (p1, MkExec (cerr rendering) (Returned tt))
  | Thrown e =>
      (p1, MkExec (cerr rendering) (Thrown e))
  end.

(** The generic overload of [parseString]:
    [template <typename T> Any parseString(const T&) const { return {}; }] *)
Definition parseString_template (p : PortInfo) (T : CppType)
    (arg : cpp_value T) : Exec Any :=
  mret Any_empty.

(** [p.parseString(arg)] for an argument of type [T]: overload
    resolution takes the non-template overload at a C string and at a
    [std::string], and the template everywhere else. *)
Definition parseString (p : PortInfo) (T : CppType)
  : cpp_value T -> Exec Any :=
  match T return cpp_value T -> Exec Any with
  | TConstCharPtr => fun str => parseString_c_str ext p str
  | TStdString => fun str => parseString_std_string ext p str
  | T' => fun arg => parseString_template p T' arg
  end.

(** The port [p] with another converter in place of its own. *)
Definition with_converter (p : PortInfo) (conv : StringConverter) : PortInfo := {|
  type_ := type_ p;
  type_info_ := type_info_ p;
  converter_ := conv;
  description_ := description_ p;
  default_value_ := default_value_ p;
  default_value_str_ := default_value_str_ p;
  type_str_ := type_str_ p
|}.

(* ================================================================== *)
(** ** Port names and [CreatePort] *)

(** A letter of the basic character set, [A-Za-z]. *)
Definition isalpha (c : ascii) : bool :=
  let n := nat_of_ascii c in
  ((65 <=? n) && (n <=? 90) || (97 <=? n) && (n <=? 122))%nat.

(** Modelled from the spec: [IsAllowedPortName], declared in the header
    and defined in [basic_types.cpp].  A name "must begin with an
    alphabetic character, must not equal the two reserved identifiers
    [name] or [ID], and must not begin with an underscore". *)
Definition IsAllowedPortName (str : string) : bool :=
  match str with
  | EmptyString => false
  | String first _ =>
      isalpha first
      && negb (String.eqb str "name" || String.eqb str "ID")
      && negb (Ascii.eqb first "_")
  end.

Definition port_name_error : Exception :=
  RuntimeError
    ("The name of a port must not be `name` or `ID` "
     +:+ "and must start with an alphabetic character. "
     +:+ "Underscore is reserved.").

(** The default template argument of [CreatePort]. *)
Definition CreatePort_default_type : CppType := TAnyTypeAllowed.

(** [CreatePort<T>(direction, name, description)] *)
Definition CreatePort (T : CppType) (direction : PortDirection)
    (name : string) (description : string) : Exec (string * PortInfo) :=
  let sname := name in
  if negb (IsAllowedPortName sname) then mthrow port_name_error
  else
    let out :=
      if is_same_void T
      then (sname, PortInfo_untyped direction)
      else (sname, PortInfo_typed direction (typeid T)
                     (GetAnyFromStringFunctor T)) in
    let out :=
      if negb (String.eqb description "")
      then (out.1, setDescription out.2 description)
      else out in
    mret out.

(** The default template argument of [InputPort], [OutputPort] and
    [BidirectionalPort]. *)
Definition Port_default_type : CppType := TVoid.

Definition InputPort (T : CppType) (name description : string)
  : Exec (string * PortInfo) :=
  CreatePort T INPUT name description.

Definition OutputPort (T : CppType) (name description : string)
  : Exec (string * PortInfo) :=
  CreatePort T OUTPUT name description.

Definition BidirectionalPort (T : CppType) (name description : string)
  : Exec (string * PortInfo) :=
  CreatePort T INOUT name description.

(** [InputPort<T>(name, default_value, description)] *)
Definition InputPort_with_default (T : CppType) (name : string)
    (default_value : cpp_value T) (description : string)
  : Exec (string * PortInfo) :=
  out ← CreatePort T INPUT name description;
  let after := setDefaultValue out.2 T default_value in
  _ ← after.2;
  mret (out.1, after.1).

(** [BidirectionalPort<T>(name, default_value, description)] *)
Definition BidirectionalPort_with_default (T : CppType) (name : string)
    (default_value : cpp_value T) (description : string)
  : Exec (string * PortInfo) :=
  out ← CreatePort T INOUT name description;
  let after := setDefaultValue out.2 T default_value in
  _ ← after.2;
  mret (out.1, after.1).

(** The three ways in which a name breaks the grammar of port names. *)
Definition begins_with_letter (name : string) : Prop :=
  exists first rest, name = String first rest /\ isalpha first = true.

Definition begins_with_underscore (name : string) : Prop :=
  exists rest, name = String "_" rest.

Definition violates_name_grammar (name : string) : Prop :=
  ~ begins_with_letter name
  \/ name = "name" \/ name = "ID"
  \/ begins_with_underscore name.

(* ================================================================== *)
(** ** Discovery of [providedPorts] *)

(** What the expression [T::f()] is for a node type [T]: ill-formed, a
    call of a static member whose return type is exactly [R], or
    well-formed with another type. *)
Inductive StaticMember (R : Type) :=
| NoSuchMember
| MemberReturning (body : Exec R)
| MemberOfOtherType (returned : CppType).
Arguments NoSuchMember {R}.
Arguments MemberReturning {R} body.
Arguments MemberOfOtherType {R} returned.

(** A node type, as far as the discovery looks at it. *)
Record NodeClass := MkNodeClass {
  class_name : string;
  providedPorts_member : StaticMember PortsList;
  description_member : StaticMember string
}.

(** [has_static_method_providedPorts<T>::value]: the specialisation is
    chosen when [decltype(T::providedPorts())] is [PortsList]. *)
Definition has_static_method_providedPorts (T : NodeClass) : bool :=
  match providedPorts_member T with
  | MemberReturning _ => true
  | _ => false
  end.

(** [has_static_method_description<T>::value] *)
Definition has_static_method_description (T : NodeClass) : bool :=
  match description_member T with
  | MemberReturning _ => true
  | _ => false
  end.

(** [enable_if<Predicate>] and [enable_if_not<Predicate>]: the type
    exists, and the overload takes part, under the condition only. *)
Definition enable_if {A} (predicate : bool) (overload : option A) : option A :=
  if predicate then overload else None.

Definition enable_if_not {A} (predicate : bool) (overload : option A) : option A :=
  if predicate then None else overload.

(** The two overloads of [getProvidedPorts<T>]:
    [return T::providedPorts();] and [return {};]. *)
Definition getProvidedPorts_declared (T : NodeClass) : option (Exec PortsList) :=
  enable_if (has_static_method_providedPorts T)
    match providedPorts_member T with
    | MemberReturning body => Some body
    | _ => None
    end.

Definition getProvidedPorts_empty (T : NodeClass) : option (Exec PortsList) :=
  enable_if_not (has_static_method_providedPorts T) (Some (mret ∅)).

(** [getProvidedPorts<T>()]: the one overload that takes part; [None]
    when the call does not compile (none, or both). *)
Definition getProvidedPorts (T : NodeClass) : option (Exec PortsList) :=
  match getProvidedPorts_declared T, getProvidedPorts_empty T with
  | Some call, None => Some call
  | None, Some call => Some call
  | _, _ => None
  end.

(** What it is for [parse] and [render] to be inverse on the canonical
    text of an enumeration: rendering then parsing gives the value
    back, every rendering is in capitals, no two values share one, and
    [parse] accepts the renderings and nothing else. *)
Definition canonical_text_laws {E} (parse : string -> Exec E)
    (render : E -> string) : Prop :=
  (forall v, parse (render v) = mret v)
  /\ (forall v, all_uppercase (render v) = true)
  /\ (forall v w, render v = render w -> v = w)
  /\ (forall str v, outcome (parse str) = Returned v -> str = render v)
  /\ (forall str, (forall v, str <> render v) -> throws (parse str)).

(** Two node types to run the discovery on: one that declares no
    ports, and one whose [providedPorts] returns
    [{ InputPort<std::string>("message") }]. *)
Definition AlwaysSuccess : NodeClass := {|
  class_name := "AlwaysSuccess";
  providedPorts_member := NoSuchMember;
  description_member := NoSuchMember
|}.

Definition SaySomething : NodeClass := {|
  class_name := "SaySomething";
  providedPorts_member :=
    MemberReturning
      (port ← InputPort TStdString "message" ""; mret {[ port.1 := port.2 ]});
  description_member := NoSuchMember
|}.

(** A class type with no specialisation of either template. *)
Definition Pose2D : CppType := TClass "Pose2D" false.

(* ================================================================== *)
(** ** Theorems *)

Lemma NodeStatus_value_inj (a b : NodeStatus) :
  NodeStatus_value a = NodeStatus_value b -> a = b.
Proof. destruct a, b; simpl; intros H; try reflexivity; discriminate H. Qed.

Lemma NodeStatus_eq_true (a b : NodeStatus) :
  NodeStatus_eq a b = true <-> a = b.
Proof.
  unfold NodeStatus_eq. rewrite Z.eqb_eq. split.
  - apply NodeStatus_value_inj.
  - intros ->. reflexivity.
Qed.

Lemma NodeStatus_ne_true (a b : NodeStatus) :
  NodeStatus_ne a b = true <-> a <> b.
Proof.
  unfold NodeStatus_ne. rewrite negb_true_iff, <- not_true_iff_false.
  rewrite NodeStatus_eq_true. reflexivity.
Qed.

(** C8. For every NodeStatus [s], [isStatusActive s] holds exactly when
    [s] is neither IDLE nor SKIPPED, and [isStatusCompleted s] holds
    exactly when [s] is SUCCESS or FAILURE. *)
Theorem status_predicates (s : NodeStatus) :
  (isStatusActive s = true <-> s <> IDLE /\ s <> SKIPPED) /\
  (isStatusCompleted s = true <-> s = SUCCESS \/ s = FAILURE).
Proof.
  unfold isStatusActive, isStatusCompleted. split.
  - rewrite andb_true_iff, !NodeStatus_ne_true. reflexivity.
  - rewrite orb_true_iff, !NodeStatus_eq_true. reflexivity.
Qed.

(* ------------------------------------------------------------------ *)
(** *** Enumerations and their text *)

Lemma convertFromString_enum_exact {E} `{CanonicalText E} (str : string) (v : E) :
  outcome (convertFromString_enum str) = Returned v -> str = canonical v.
Proof.
  unfold convertFromString_enum.
  destruct (List.find _ enumerators) as [w|] eqn:Hfind; simpl.
  - intros [= ->]. apply find_some in Hfind as [_ Heq].
    apply String.eqb_eq in Heq. exact Heq.
  - discriminate.
Qed.

Lemma convertFromString_enum_unknown {E} `{CanonicalText E} (str : string) :
  (forall v : E, str <> canonical v) -> throws (convertFromString_enum str).
Proof.
  intros Hnone. unfold throws, convertFromString_enum.
  destruct (List.find _ enumerators) as [w|] eqn:Hfind; simpl.
  - apply find_some in Hfind as [_ Heq].
    apply String.eqb_eq in Heq. destruct (Hnone w Heq).
  - eexists. reflexivity.
Qed.

Lemma NodeStatus_text_laws :
  canonical_text_laws convertFromString_NodeStatus toStr_NodeStatus.
Proof.
  repeat split.
  - intros []; reflexivity.
  - intros []; reflexivity.
  - intros [] []; simpl; intros Heq; try reflexivity; discriminate Heq.
  - apply convertFromString_enum_exact.
  - apply convertFromString_enum_unknown.
Qed.

Lemma NodeType_text_laws :
  canonical_text_laws convertFromString_NodeType toStr_NodeType.
Proof.
  repeat split.
  - intros []; reflexivity.
  - intros []; reflexivity.
  - intros [] []; simpl; intros Heq; try reflexivity; discriminate Heq.
  - apply convertFromString_enum_exact.
  - apply convertFromString_enum_unknown.
Qed.

Lemma PortDirection_text_laws :
  canonical_text_laws convertFromString_PortDirection toStr_PortDirection.
Proof.
  repeat split.
  - intros []; reflexivity.
  - intros []; reflexivity.
  - intros [] []; simpl; intros Heq; try reflexivity; discriminate Heq.
  - apply convertFromString_enum_exact.
  - apply convertFromString_enum_unknown.
Qed.

(** The template families reach these functions at the three types. *)
Lemma enum_specializations_selected (str : string) :
  convertFromString TNodeStatus str = convertFromString_NodeStatus str
  /\ convertFromString TNodeType str = convertFromString_NodeType str
  /\ convertFromString TPortDirection str = convertFromString_PortDirection str
  /\ (forall v, toStr TNodeStatus v = mret (toStr_NodeStatus v))
  /\ (forall v, toStr TNodeType v = mret (toStr_NodeType v))
  /\ (forall v, toStr TPortDirection v = mret (toStr_PortDirection v)).
Proof. repeat split. Qed.

(** C1. For each of NodeStatus, NodeType and PortDirection: parsing the
    rendered text of a value gives the value back; the rendering is the
    one canonical name of the value, in capitals, and no two values
    share it; parsing returns a value only on its canonical name, and
    fails on every string that is not a canonical name. *)
Theorem enum_text_roundtrip :
  canonical_text_laws convertFromString_NodeStatus toStr_NodeStatus
  /\ canonical_text_laws convertFromString_NodeType toStr_NodeType
  /\ canonical_text_laws convertFromString_PortDirection toStr_PortDirection.
Proof.
  split; [| split].
  - exact NodeStatus_text_laws.
  - exact NodeType_text_laws.
  - exact PortDirection_text_laws.
Qed.

Example parse_is_case_sensitive :
  throws (convertFromString_NodeStatus "idle")
  /\ throws (convertFromString_NodeType "Action")
  /\ throws (convertFromString_PortDirection "InOut")
  /\ convertFromString_PortDirection "INOUT" = mret INOUT.
Proof. repeat split; eexists; reflexivity. Qed.

(* ------------------------------------------------------------------ *)
(** *** Booleans *)

(** C7. [convertFromString<bool>] returns false exactly on "0",
    "false" and "FALSE", returns true exactly on "1", "true" and
    "TRUE", and fails with a conversion error on every other string. *)
Theorem convertFromString_bool_forms (str : string) :
  (outcome (convertFromString_bool str) = Returned false
     <-> str = "0" \/ str = "false" \/ str = "FALSE")
  /\ (outcome (convertFromString_bool str) = Returned true
     <-> str = "1" \/ str = "true" \/ str = "TRUE")
  /\ ((exists what, outcome (convertFromString_bool str)
                    = Thrown (RuntimeError what))
     <-> ~ In str ["0"; "1"; "true"; "false"; "TRUE"; "FALSE"]).
Proof.
  unfold convertFromString_bool.
  destruct (String.eqb_spec str "0") as [->|H0]; simpl.
  { repeat split; try (intros; discriminate); auto.
    - intros [H|[H|H]]; discriminate H.
    - intros [what H]; discriminate H.
    - intros H; exfalso; apply H; simpl; auto. }
  destruct (String.eqb_spec str "false") as [->|Hf]; simpl.
  { repeat split; try (intros; discriminate); auto.
    - intros [H|[H|H]]; discriminate H.
    - intros [what H]; discriminate H.
    - intros H; exfalso; apply H; simpl; auto 7. }
  destruct (String.eqb_spec str "FALSE") as [->|HF]; simpl.
  { repeat split; try (intros; discriminate); auto.
    - intros [H|[H|H]]; discriminate H.
    - intros [what H]; discriminate H.
    - intros H; exfalso; apply H; simpl; auto 7. }
  destruct (String.eqb_spec str "1") as [->|H1]; simpl.
  { repeat split; try (intros; discriminate); auto.
    - intros [H|[H|H]]; discriminate H.
    - intros [what H]; discriminate H.
    - intros H; exfalso; apply H; simpl; auto 7. }
  destruct (String.eqb_spec str "true") as [->|Ht]; simpl.
  { repeat split; try (intros; discriminate); auto.
    - intros [H|[H|H]]; discriminate H.
    - intros [what H]; discriminate H.
    - intros H; exfalso; apply H; simpl; auto 7. }
  destruct (String.eqb_spec str "TRUE") as [->|HT]; simpl.
  { repeat split; try (intros; discriminate); auto.
    - intros [H|[H|H]]; discriminate H.
    - intros [what H]; discriminate H.
    - intros H; exfalso; apply H; simpl; auto 7. }
  repeat split; try (intros; discriminate).
  - intros [H|[H|H]]; contradiction.
  - intros [H|[H|H]]; contradiction.
  - intros _ [H|[H|[H|[H|[H|[H|[]]]]]]]; congruence.
  - intros _. eexists. reflexivity.
Qed.

Example convertFromString_bool_samples :
  convertFromString_bool "0" = mret false
  /\ convertFromString_bool "false" = mret false
  /\ convertFromString_bool "FALSE" = mret false
  /\ convertFromString_bool "1" = mret true
  /\ convertFromString_bool "true" = mret true
  /\ convertFromString_bool "TRUE" = mret true
  /\ throws (convertFromString_bool "yes")
  /\ throws (convertFromString_bool "True")
  /\ throws (convertFromString_bool "").
Proof. repeat split; eexists; reflexivity. Qed.

(* ------------------------------------------------------------------ *)
(** *** Port names *)

Lemma IsAllowedPortName_false (name : string) :
  IsAllowedPortName name = false <-> violates_name_grammar name.
Proof.
  unfold violates_name_grammar, begins_with_letter, begins_with_underscore.
  destruct name as [|first rest].
  - simpl. split; [intros _ | reflexivity].
    left. intros (c & r & Heq & _). discriminate Heq.
  - unfold IsAllowedPortName.
    rewrite !andb_false_iff, !negb_false_iff, orb_true_iff.
    rewrite !String.eqb_eq, Ascii.eqb_eq. split.
    + intros [[Halpha | [Hname | HID]] | Hunder].
      * left. intros (c & r & [= <- <-] & Hc). congruence.
      * right; left; exact Hname.
      * right; right; left; exact HID.
      * right; right; right. exists rest. rewrite Hunder. reflexivity.
    + intros [Hletter | [Hname | [HID | (r & [= -> ->])]]].
      * left; left. destruct (isalpha first) eqn:Halpha; [| reflexivity].
        destruct Hletter. exists first, rest. split; [reflexivity | exact Halpha].
      * left; right; left; exact Hname.
      * left; right; right; exact HID.
      * right; reflexivity.
Qed.

Lemma IsAllowedPortName_true (name : string) :
  IsAllowedPortName name = true <-> ~ violates_name_grammar name.
Proof.
  rewrite <- IsAllowedPortName_false.
  destruct (IsAllowedPortName name); split; congruence.
Qed.

(** What [CreatePort] returns once the name has passed. *)
Lemma CreatePort_allowed (T : CppType) (dir : PortDirection)
    (name descr : string) :
  IsAllowedPortName name = true ->
  CreatePort T dir name descr
  = mret (name,
          let info :=
            if is_same_void T then PortInfo_untyped dir
            else PortInfo_typed dir (typeid T) (GetAnyFromStringFunctor T) in
          if negb (String.eqb descr "") then setDescription info descr
          else info).
Proof.
  intros Hname. unfold CreatePort. rewrite Hname. simpl.
  destruct (is_same_void T), (String.eqb descr ""); reflexivity.
Qed.

(** C4. [CreatePort] throws the naming error, and so returns no port,
    exactly when the name breaks the grammar: it does not begin with a
    letter, or is "name" or "ID", or begins with an underscore.  On
    every other name it returns the pair of that name and a port. *)
Theorem CreatePort_checks_name (T : CppType) (dir : PortDirection)
    (name descr : string) :
  (violates_name_grammar name
   /\ CreatePort T dir name descr = mthrow port_name_error)
  \/ (~ violates_name_grammar name
      /\ exists info, CreatePort T dir name descr = mret (name, info)).
Proof.
  destruct (IsAllowedPortName name) eqn:Hname.
  - right. split.
    + apply IsAllowedPortName_true, Hname.
    + eexists. apply CreatePort_allowed, Hname.
  - left. split.
    + apply IsAllowedPortName_false, Hname.
    + unfold CreatePort. rewrite Hname. reflexivity.
Qed.

Example CreatePort_names (T : CppType) (dir : PortDirection) :
  CreatePort T dir "name" "" = mthrow port_name_error
  /\ CreatePort T dir "ID" "" = mthrow port_name_error
  /\ CreatePort T dir "_x" "" = mthrow port_name_error
  /\ CreatePort T dir "1x" "" = mthrow port_name_error
  /\ CreatePort T dir "" "" = mthrow port_name_error
  /\ exists info, CreatePort T dir "speed" "" = mret ("speed", info).
Proof.
  repeat split. eexists. apply CreatePort_allowed. reflexivity.
Qed.

(* ------------------------------------------------------------------ *)
(** *** Types without a specialisation *)

Lemma append_empty_r (s : string) : s +:+ "" = s.
Proof.
  induction s as [|c s IH]; [reflexivity |].
  change (String c (s +:+ "") = String c s). rewrite IH. reflexivity.
Qed.

Lemma mentions_suffix (before s : string) : mentions (before +:+ s) s.
Proof. exists before, "". rewrite append_empty_r. reflexivity. Qed.

Lemma convertFromString_unspecialized (T : CppType) (str : string) :
  T ∉ convertFromString_specializations ->
  convertFromString T str = convertFromString_template T str.
Proof.
  intros Hnot.
  destruct T as [| |a| | | | | | | | |name flag];
    try reflexivity; try specialized_here Hnot.
  destruct a; try reflexivity; specialized_here Hnot.
Qed.

Lemma toStr_unspecialized (T : CppType) (value : cpp_value T) :
  T ∉ toStr_specializations ->
  toStr T value = toStr_template T value.
Proof.
  intros Hnot.
  destruct T as [| |a| | | | | | | | |name flag];
    try reflexivity; try specialized_here Hnot.
  destruct a; try reflexivity; specialized_here Hnot.
Qed.

(** C5. At a type [T] with no specialisation, [convertFromString<T>]
    throws a LogicError whose message names [T], whatever the text.
    [toStr<T>] at a non-arithmetic [T] with no specialisation throws a
    LogicError whose message names [T]; at an arithmetic type with no
    specialisation it returns [std::to_string] of the value. *)
Theorem missing_specialization (T : CppType) (a : Arithmetic) :
  (T ∉ convertFromString_specializations ->
   forall str, exists what,
     outcome (convertFromString T str) = Thrown (LogicError what)
     /\ mentions what (demangle ext (typeid T)))
  /\ (T ∉ toStr_specializations -> is_arithmetic T = false ->
      forall value, exists what,
        toStr T value = mthrow (LogicError what)
        /\ mentions what (demangle ext (typeid T)))
  /\ (TArith a ∉ toStr_specializations ->
      forall value,
        toStr (TArith a) value = mret (std_to_string a value)).
Proof.
  split; [| split].
  - intros Hnot str. rewrite convertFromString_unspecialized by exact Hnot.
    eexists. split; [reflexivity |]. apply mentions_suffix.
  - intros Hnot Harith value. rewrite toStr_unspecialized by exact Hnot.
    destruct T; try discriminate Harith;
      (eexists; split; [reflexivity |]; eexists _, _; reflexivity).
  - intros Hnot value. rewrite toStr_unspecialized by exact Hnot. reflexivity.
Qed.

(* ------------------------------------------------------------------ *)
(** *** Default values *)

(** [toStr] writes nothing, and throws nothing but a LogicError. *)
Lemma toStr_outcome (T : CppType) (value : cpp_value T) :
  (exists text, toStr T value = mret text)
  \/ (exists what, toStr T value = mthrow (LogicError what)).
Proof.
  destruct T as [| |a| | | | | | | | |name flag];
    try (left; eexists; reflexivity);
    try (right; eexists; reflexivity).
  destruct a; left; eexists; reflexivity.
Qed.

(** [setDefaultValue] touches the two default members only. *)
Lemma setDefaultValue_frame (p : PortInfo) (T : CppType)
    (value : cpp_value T) :
  let after := (setDefaultValue p T value).1 in
  direction after = direction p
  /\ type after = type p
  /\ converter after = converter p
  /\ description after = description p
  /\ typeName after = typeName p.
Proof.
  unfold setDefaultValue.
  destruct (toStr_outcome T value) as [[text ->] | [what ->]];
    simpl; repeat split.
Qed.

(** C3, as amended.  [setDefaultValue] never throws and writes nothing:
    it stores the typed default, and then either the rendering succeeds
    and becomes the default's text, or the rendering throws, the
    exception is swallowed, and the default's text is left as it was
    before the call (so empty where it was empty). *)
Theorem setDefaultValue_never_fails (p : PortInfo) (T : CppType)
    (value : cpp_value T) :
  let after := setDefaultValue p T value in
  after.2 = mret tt
  /\ defaultValue after.1 = Any_from T value
  /\ (forall text, outcome (toStr T value) = Returned text ->
      defaultValueString after.1 = text)
  /\ (throws (toStr T value) ->
      defaultValueString after.1 = defaultValueString p)
  /\ (throws (toStr T value) -> defaultValueString p = "" ->
      defaultValueString after.1 = "").
Proof.
  unfold setDefaultValue, throws.
  destruct (toStr_outcome T value) as [[text ->] | [what ->]]; simpl.
  - repeat split.
    + intros text' [= ->]. reflexivity.
    + intros [e He]. discriminate He.
    + intros [e He]. discriminate He.
  - repeat split.
    + intros text' He. discriminate He.
    + intros _ Hempty. exact Hempty.
Qed.

(* ------------------------------------------------------------------ *)
(** *** Typed and untyped ports *)

Lemma isStronglyTyped_typed (dir : PortDirection) (T : CppType)
    (conv : StringConverter) :
  isStronglyTyped (PortInfo_typed dir (typeid T) conv)
  = bool_decide (T <> TAnyTypeAllowed).
Proof. reflexivity. Qed.

Lemma isStronglyTyped_setDescription (p : PortInfo) (text : string) :
  isStronglyTyped (setDescription p text) = isStronglyTyped p.
Proof. reflexivity. Qed.

(** A port created at a type other than [void] and the sentinel is
    strongly typed and holds the converter of its type. *)
Lemma CreatePort_explicit_type (T : CppType) (dir : PortDirection)
    (name descr : string) :
  T <> TVoid -> T <> TAnyTypeAllowed ->
  IsAllowedPortName name = true ->
  exists info,
    CreatePort T dir name descr = mret (name, info)
    /\ isStronglyTyped info = true
    /\ converter info = GetAnyFromStringFunctor T.
Proof.
  intros Hvoid Hany Hname. eexists. split.
  - apply CreatePort_allowed, Hname.
  - assert (is_same_void T = false) as ->
      by (destruct T; try reflexivity; congruence).
    destruct (negb (String.eqb descr "")); simpl;
      (split; [apply bool_decide_eq_true_2; exact Hany | reflexivity]).
Qed.

(** A port created at [void], the default of [InputPort], [OutputPort]
    and [BidirectionalPort], is not strongly typed and has no
    converter. *)
Lemma CreatePort_void (dir : PortDirection) (name descr : string) :
  IsAllowedPortName name = true ->
  exists info,
    CreatePort TVoid dir name descr = mret (name, info)
    /\ isStronglyTyped info = false
    /\ converter info = None.
Proof.
  intros Hname. eexists. split.
  - apply CreatePort_allowed, Hname.
  - destruct (negb (String.eqb descr "")); split; reflexivity.
Qed.

(** C2, at the default type argument of [CreatePort].  The port is not
    strongly typed, and yet it holds a converter: the one made by
    [GetAnyFromStringFunctor] at the sentinel type, which throws a
    LogicError on every text. *)
Theorem CreatePort_default_type_converter (dir : PortDirection) :
  exists info conv,
    CreatePort CreatePort_default_type dir "speed" "" = mret ("speed", info)
    /\ isStronglyTyped info = false
    /\ converter info = Some conv
    /\ converter info = GetAnyFromStringFunctor TAnyTypeAllowed
    /\ forall str, exists what, outcome (conv str) = Thrown (LogicError what).
Proof.
  eexists _, _. split; [reflexivity |].
  split; [reflexivity |]. split; [reflexivity |]. split; [reflexivity |].
  intros str. eexists. reflexivity.
Qed.

(* ------------------------------------------------------------------ *)
(** *** Discovery of the ports of a node type *)

(** C6. [getProvidedPorts<T>()] is the call [T::providedPorts()] when
    [T] declares a static [providedPorts] returning a [PortsList]; when
    it declares none, the call returns the empty list, writing and
    throwing nothing.  One of the two overloads always takes part. *)
Theorem getProvidedPorts_discovery (T : NodeClass) :
  (forall body, providedPorts_member T = MemberReturning body ->
     getProvidedPorts T = Some body)
  /\ (has_static_method_providedPorts T = false ->
      getProvidedPorts T = Some (mret ∅)
      /\ silent (mret (∅ : PortsList) : Exec PortsList))
  /\ (exists call, getProvidedPorts T = Some call).
Proof.
  unfold getProvidedPorts, getProvidedPorts_declared, getProvidedPorts_empty,
    has_static_method_providedPorts, enable_if, enable_if_not.
  destruct (providedPorts_member T) as [|body|other]; simpl.
  - split; [intros body H; discriminate H |].
    split; [| eexists; reflexivity].
    intros _. split; [reflexivity |]. split; [reflexivity | eexists; reflexivity].
  - split; [intros body' [= ->]; reflexivity |].
    split; [intros H; discriminate H | eexists; reflexivity].
  - split; [intros body H; discriminate H |].
    split; [| eexists; reflexivity].
    intros _. split; [reflexivity |]. split; [reflexivity | eexists; reflexivity].
Qed.

(* ------------------------------------------------------------------ *)
(** *** The generic [parseString] *)

(** C9. On an argument that is neither a C string nor a [std::string],
    [parseString] is the generic overload: it returns an empty [Any],
    writes and throws nothing, and gives the same result whatever the
    converter of the port is. *)
Theorem parseString_generic_is_empty (p : PortInfo) (T : CppType)
    (arg : cpp_value T) :
  T <> TConstCharPtr -> T <> TStdString ->
  parseString p T arg = mret Any_empty
  /\ silent (parseString p T arg)
  /\ forall conv, parseString (with_converter p conv) T arg = mret Any_empty.
Proof.
  intros Hc Hs.
  assert (forall q, parseString q T arg = mret Any_empty) as Hgeneric.
  { intros q. destruct T; try reflexivity; congruence. }
  split; [apply Hgeneric |]. split.
  - rewrite Hgeneric. split; [reflexivity | eexists; reflexivity].
  - intros conv. apply Hgeneric.
Qed.

(* ------------------------------------------------------------------ *)
(** *** The untyped constructor *)

(** C10. Whatever the direction, a port built from a direction alone
    has the sentinel as its type, "AnyTypeAllowed" as its type name, is
    not strongly typed, and has no converter, no description and no
    default value. *)
Theorem PortInfo_untyped_attributes (dir : PortDirection) :
  let p := PortInfo_untyped dir in
  direction p = dir
  /\ type p = typeid TAnyTypeAllowed
  /\ typeName p = "AnyTypeAllowed"
  /\ isStronglyTyped p = false
  /\ converter p = None
  /\ description p = ""
  /\ defaultValue p = Any_empty
  /\ defaultValueString p = "".
Proof. repeat split. Qed.

(* ================================================================== *)
(** ** Further properties *)

(* ------------------------------------------------------------------ *)
(** *** The two status predicates together *)

(** X1. A completed status is an active one, and RUNNING is the only
    status that is active without being completed. *)
Theorem completed_status_is_active (s : NodeStatus) :
  isStatusCompleted s && negb (isStatusActive s) = false
  /\ (isStatusActive s && negb (isStatusCompleted s) = true <-> s = RUNNING).
Proof.
  destruct s; (split; [reflexivity |]); split; intros H;
    try reflexivity; discriminate H.
Qed.

(* ------------------------------------------------------------------ *)
(** *** The converters made by [GetAnyFromStringFunctor] *)

(** Binding a call to a return keeps what the call wrote and how it
    ended. *)
Lemma bind_ret_cerr {A B} (m : Exec A) (f : A -> B) :
  cerr (a ← m; mret (f a)) = cerr m.
Proof.
  unfold mbind, Exec_bind. destruct (outcome m); simpl;
    [apply append_empty_r | reflexivity].
Qed.

Lemma bind_ret_outcome {A B} (m : Exec A) (f : A -> B) :
  outcome (a ← m; mret (f a))
  = match outcome m with
    | Returned a => Returned (f a)
    | Thrown e => Thrown e
    end.
Proof. unfold mbind, Exec_bind. destruct (outcome m); reflexivity. Qed.

(** The converter at a type that is neither [void] nor text-like. *)
Lemma GetAnyFromStringFunctor_parser (T : CppType) :
  T <> TVoid -> is_constructible_StringView T = false ->
  GetAnyFromStringFunctor T
  = Some (fun str => v ← convertFromString T str; mret (Any_from T v)).
Proof.
  intros Hvoid Htext. destruct T; try congruence; try discriminate Htext;
    try reflexivity.
  simpl in Htext. subst. reflexivity.
Qed.

(** The converter at a text-like type. *)
Lemma GetAnyFromStringFunctor_text (T : CppType) :
  is_constructible_StringView T = true ->
  GetAnyFromStringFunctor T
  = Some (fun str => mret (Any_from TStringView str)).
Proof.
  intros Htext. destruct T; try discriminate Htext; try reflexivity.
  simpl in Htext. subst. reflexivity.
Qed.

(** X2. [GetAnyFromStringFunctor<T>()] is empty at [void] and nowhere
    else; and a value that one of its converters returns is never the
    empty [Any]: it holds a [T], or a [StringView] when [T] is
    text-like. *)
Theorem converter_empty_only_at_void (T : CppType) :
  (GetAnyFromStringFunctor T = None <-> T = TVoid)
  /\ (forall conv str a,
        GetAnyFromStringFunctor T = Some conv ->
        outcome (conv str) = Returned a ->
        (is_constructible_StringView T = true
         /\ a = Any_from TStringView str)
        \/ (is_constructible_StringView T = false
            /\ exists v, a = Any_from T v)).
Proof.
  split.
  - split; [| intros ->; reflexivity].
    destruct (decide (T = TVoid)) as [? | Hvoid]; [trivial |].
    destruct (is_constructible_StringView T) eqn:Htext.
    + rewrite GetAnyFromStringFunctor_text by exact Htext. discriminate.
    + rewrite GetAnyFromStringFunctor_parser by assumption. discriminate.
  - intros conv str a Hconv Hret.
    destruct (decide (T = TVoid)) as [-> | Hvoid]; [discriminate Hconv |].
    destruct (is_constructible_StringView T) eqn:Htext.
    + left. split; [reflexivity |].
      rewrite GetAnyFromStringFunctor_text in Hconv by exact Htext.
      injection Hconv as <-. simpl in Hret. congruence.
    + right. split; [reflexivity |].
      rewrite GetAnyFromStringFunctor_parser in Hconv by assumption.
      injection Hconv as <-. cbv beta in Hret.
      rewrite bind_ret_outcome in Hret.
      destruct (outcome (convertFromString T str)) as [v | e];
        [| discriminate Hret].
      exists v. congruence.
Qed.

(** X3. At a text-like type, [std::string] and [const char*] included,
    the converter never fails and never writes: it returns the text
    itself, wrapped as a [StringView], and does not call
    [convertFromString]. *)
Theorem text_like_converter_keeps_text (T : CppType) :
  is_constructible_StringView T = true ->
  exists conv,
    GetAnyFromStringFunctor T = Some conv
    /\ forall str, conv str = mret (Any_from TStringView str).
Proof.
  intros Htext. eexists. split.
  - apply GetAnyFromStringFunctor_text, Htext.
  - reflexivity.
Qed.

(** X4. At any other type but [void], the converter is
    [convertFromString<T>] followed by [Any]: it writes what the parser
    writes, throws what the parser throws, and wraps what the parser
    returns. *)
Theorem converter_follows_parser (T : CppType) :
  T <> TVoid -> is_constructible_StringView T = false ->
  exists conv,
    GetAnyFromStringFunctor T = Some conv
    /\ forall str,
         cerr (conv str) = cerr (convertFromString T str)
         /\ (forall v, outcome (convertFromString T str) = Returned v ->
               outcome (conv str) = Returned (Any_from T v))
         /\ (forall e, outcome (convertFromString T str) = Thrown e ->
               outcome (conv str) = Thrown e).
Proof.
  intros Hvoid Htext. eexists. split.
  - apply GetAnyFromStringFunctor_parser; assumption.
  - intros str. cbv beta. split; [apply bind_ret_cerr |].
    split; intros x Hx; rewrite bind_ret_outcome, Hx; reflexivity.
Qed.

(* ------------------------------------------------------------------ *)
(** *** What a missing specialisation does, and when *)


(** X6. Creating a port at a type with no specialisation of
    [convertFromString] succeeds like at any other type: the missing
    parser is not noticed then.  The port that is returned holds a
    converter, and that converter throws a LogicError naming the type
    on every text. *)
Theorem unspecialized_port_converter_throws (T : CppType)
    (dir : PortDirection) (name descr : string) (info : PortInfo) :
  T <> TVoid -> is_constructible_StringView T = false ->
  T ∉ convertFromString_specializations ->
  CreatePort T dir name descr = mret (name, info) ->
  exists conv,
    converter info = Some conv
    /\ forall str, exists what,
         outcome (conv str) = Thrown (LogicError what)
         /\ mentions what (demangle ext (typeid T)).
Proof.
  intros Hvoid Htext Hnot Hcreated.
  destruct (IsAllowedPortName name) eqn:Hname;
    [| unfold CreatePort in Hcreated; rewrite Hname in Hcreated;
       discriminate Hcreated].
  rewrite CreatePort_allowed in Hcreated by exact Hname.
  injection Hcreated as <-.
  assert (is_same_void T = false) as ->
    by (destruct T; try reflexivity; congruence).
  eexists. split.
  - destruct (negb (String.eqb descr "")); simpl;
      apply GetAnyFromStringFunctor_parser; assumption.
  - intros str. cbv beta. rewrite bind_ret_outcome.
    rewrite convertFromString_unspecialized by exact Hnot.
    eexists. split; [reflexivity |]. apply mentions_suffix.
Qed.

(* ------------------------------------------------------------------ *)
(** *** When [toStr] throws *)

(** X7. [toStr<T>] throws exactly at the types that are neither
    arithmetic nor specialised, and it never writes to [std::cerr]. *)
Theorem toStr_throws_iff (T : CppType) (value : cpp_value T) :
  (throws (toStr T value)
   <-> (T ∉ toStr_specializations) /\ is_arithmetic T = false)
  /\ cerr (toStr T value) = "".
Proof.
  unfold throws.
  destruct T as [| |a| | | | | | | | |name flag];
    try (split; [| reflexivity]; split;
         [ intros _; split; [not_specialized | reflexivity]
         | intros _; eexists; reflexivity ]);
    try (split; [| reflexivity]; split;
         [ intros [e He]; discriminate He
         | intros [Hnot _]; specialized_here Hnot ]).
  destruct a;
    (split; [| reflexivity]; split;
     [ intros [e He]; discriminate He
     | intros [_ Harith]; discriminate Harith ]).
Qed.

(* ------------------------------------------------------------------ *)
(** *** [setDefaultValue], composed *)

(** X8. [setDefaultValue] changes the default value and its text and
    nothing else, and it does not compare the type of the default with
    the type of the port: a default of any type is stored in a port of
    any type, and the port stays as strongly typed as it was. *)
Theorem setDefaultValue_changes_defaults_only (p : PortInfo) (T : CppType)
    (value : cpp_value T) :
  let after := (setDefaultValue p T value).1 in
  type_ after = type_ p
  /\ type_info_ after = type_info_ p
  /\ converter_ after = converter_ p
  /\ description_ after = description_ p
  /\ type_str_ after = type_str_ p
  /\ isStronglyTyped after = isStronglyTyped p
  /\ default_value_ after = Any_from T value.
Proof.
  unfold setDefaultValue.
  destruct (toStr_outcome T value) as [[text ->] | [what ->]];
    simpl; repeat split.
Qed.

(** X9. Setting the same default twice is the same as setting it
    once. *)
Theorem setDefaultValue_idempotent (p : PortInfo) (T : CppType)
    (value : cpp_value T) :
  setDefaultValue (setDefaultValue p T value).1 T value
  = setDefaultValue p T value.
Proof.
  unfold setDefaultValue.
  destruct (toStr_outcome T value) as [[text ->] | [what ->]];
    simpl; reflexivity.
Qed.

(** X10. A later default that can be rendered replaces an earlier one
    altogether: the port is the one that the later call alone would
    have given. *)
Theorem setDefaultValue_last_rendered_wins (p : PortInfo)
    (T1 T2 : CppType) (v1 : cpp_value T1) (v2 : cpp_value T2) (text : string) :
  outcome (toStr T2 v2) = Returned text ->
  setDefaultValue (setDefaultValue p T1 v1).1 T2 v2
  = setDefaultValue p T2 v2.
Proof.
  intros Hrendered. unfold setDefaultValue.
  destruct (toStr_outcome T2 v2) as [[text2 H2] | [what H2]];
    rewrite H2 in *; [| discriminate Hrendered].
  destruct (toStr_outcome T1 v1) as [[text1 ->] | [what ->]];
    simpl; reflexivity.
Qed.

(* ------------------------------------------------------------------ *)
(** *** [CreatePort] and the port factories *)

(** X11. Whether [CreatePort] fails depends on the name alone, not on
    the type, the direction or the description.  It never writes to
    [std::cerr]; when it throws, it throws the naming error; when it
    returns, the name it returns is the name it was given. *)
Theorem CreatePort_fails_by_name_only (T T' : CppType)
    (dir dir' : PortDirection) (name descr descr' : string) :
  (throws (CreatePort T dir name descr)
   <-> throws (CreatePort T' dir' name descr'))
  /\ cerr (CreatePort T dir name descr) = ""
  /\ (forall e, outcome (CreatePort T dir name descr) = Thrown e ->
        e = port_name_error)
  /\ (forall n info,
        outcome (CreatePort T dir name descr) = Returned (n, info) ->
        n = name).
Proof.
  unfold throws. destruct (IsAllowedPortName name) eqn:Hname.
  - rewrite !CreatePort_allowed by exact Hname. simpl. repeat split.
    + intros [e He]. discriminate He.
    + intros [e He]. discriminate He.
    + intros e He. discriminate He.
    + intros n info [= <- _]. reflexivity.
  - unfold CreatePort. rewrite Hname. simpl. repeat split.
    + intros _. eexists. reflexivity.
    + intros _. eexists. reflexivity.
    + intros e [= <-]. reflexivity.
    + intros n info He. discriminate He.
Qed.

(** X12. The port that [CreatePort<T>] returns is strongly typed
    exactly when [T] is neither [void] nor the sentinel; it has a
    converter exactly when [T] is not [void]; and its type is [T], or
    the sentinel at [void]. *)
Theorem CreatePort_typing (T : CppType) (dir : PortDirection)
    (name descr : string) (info : PortInfo) :
  CreatePort T dir name descr = mret (name, info) ->
  (isStronglyTyped info = true <-> T <> TVoid /\ T <> TAnyTypeAllowed)
  /\ (converter info = None <-> T = TVoid)
  /\ converter info = GetAnyFromStringFunctor T
  /\ type_info_ info = (if is_same_void T then typeid TAnyTypeAllowed
                        else typeid T).
Proof.
  intros Hcreated.
  destruct (IsAllowedPortName name) eqn:Hname;
    [| unfold CreatePort in Hcreated; rewrite Hname in Hcreated;
       discriminate Hcreated].
  rewrite CreatePort_allowed in Hcreated by exact Hname.
  injection Hcreated as <-.
  destruct (decide (T = TVoid)) as [-> | Hvoid].
  - destruct (negb (String.eqb descr "")); simpl; repeat split;
      try discriminate; try congruence.
    + intros [H _]. congruence.
    + intros [H _]. congruence.
  - assert (is_same_void T = false) as ->
      by (destruct T; try reflexivity; congruence).
    assert (GetAnyFromStringFunctor T <> None) as Hconv.
    { destruct (is_constructible_StringView T) eqn:Htext.
      - rewrite GetAnyFromStringFunctor_text by exact Htext. discriminate.
      - rewrite GetAnyFromStringFunctor_parser by assumption. discriminate. }
    assert (forall q, type_info_ q = typeid T ->
              (isStronglyTyped q = true <-> T <> TVoid /\ T <> TAnyTypeAllowed))
      as Hstrong.
    { intros q Hq. unfold isStronglyTyped. rewrite Hq, bool_decide_eq_true.
      unfold typeid. tauto. }
    destruct (negb (String.eqb descr "")); simpl;
      (split; [apply Hstrong; reflexivity |]);
      (split; [split; [intros H; destruct (Hconv H) | intros H; destruct (Hvoid H)] |]);
      split; reflexivity.
Qed.

(** X13. A port fresh from [CreatePort] has the direction and the
    description it was created with, no default value and no default
    text; its type name is "AnyTypeAllowed" at [void] and the demangled
    name of [T] at every other type, the sentinel included. *)
Theorem CreatePort_fresh_port (T : CppType) (dir : PortDirection)
    (name descr : string) (info : PortInfo) :
  CreatePort T dir name descr = mret (name, info) ->
  type_ info = dir
  /\ description_ info = descr
  /\ default_value_ info = Any_empty
  /\ default_value_str_ info = ""
  /\ type_str_ info = (if is_same_void T then "AnyTypeAllowed"
                       else demangle ext (typeid T)).
Proof.
  intros Hcreated.
  destruct (IsAllowedPortName name) eqn:Hname;
    [| unfold CreatePort in Hcreated; rewrite Hname in Hcreated;
       discriminate Hcreated].
  rewrite CreatePort_allowed in Hcreated by exact Hname.
  injection Hcreated as <-.
  destruct (String.eqb_spec descr "") as [-> | Hdescr];
    destruct (is_same_void T); simpl; repeat split.
Qed.

(** X14. [InputPort] and [BidirectionalPort] with a default value:
    on a name that [CreatePort] refuses they throw the naming error
    and set nothing; on any other name they return a port of their
    direction that holds the typed default, with the rendering of the
    default as its text, or no text when the default cannot be
    rendered. *)
Theorem ports_with_default (T : CppType) (name : string)
    (value : cpp_value T) (descr : string) :
  (throws (CreatePort T INPUT name descr)
   /\ InputPort_with_default T name value descr = mthrow port_name_error
   /\ BidirectionalPort_with_default T name value descr
      = mthrow port_name_error)
  \/ (~ throws (CreatePort T INPUT name descr)
      /\ exists input inout,
           InputPort_with_default T name value descr = mret (name, input)
           /\ BidirectionalPort_with_default T name value descr
              = mret (name, inout)
           /\ type_ input = INPUT /\ type_ inout = INOUT
           /\ default_value_ input = Any_from T value
           /\ default_value_ inout = Any_from T value
           /\ (forall text, outcome (toStr T value) = Returned text ->
                 default_value_str_ input = text
                 /\ default_value_str_ inout = text)
           /\ (throws (toStr T value) ->
                 default_value_str_ input = ""
                 /\ default_value_str_ inout = "")).
Proof.
  unfold InputPort_with_default, BidirectionalPort_with_default.
  destruct (IsAllowedPortName name) eqn:Hname.
  - right. rewrite !CreatePort_allowed by exact Hname.
    split; [intros [e He]; discriminate He |].
    unfold setDefaultValue, throws, mbind, Exec_bind. simpl.
    destruct (toStr_outcome T value) as [[text ->] | [what ->]]; simpl.
    + eexists _, _. split; [reflexivity |]. split; [reflexivity |].
      destruct (is_same_void T), (negb (String.eqb descr "")); simpl;
        repeat split; intros;
        repeat match goal with H : ex _ |- _ => destruct H end;
        congruence.
    + eexists _, _. split; [reflexivity |]. split; [reflexivity |].
      destruct (is_same_void T), (negb (String.eqb descr "")); simpl;
        repeat split; intros;
        repeat match goal with H : ex _ |- _ => destruct H end;
        congruence.
  - left. unfold CreatePort. rewrite Hname.
    split; [eexists; reflexivity |]. split; reflexivity.
Qed.

(** X16. [InputPort], [OutputPort] and [BidirectionalPort] fail on the
    same names, and the ports they return differ in their direction
    and in nothing else. *)
Theorem port_factories_differ_in_direction (T : CppType)
    (name descr : string) :
  (throws (InputPort T name descr) <-> throws (OutputPort T name descr))
  /\ (throws (InputPort T name descr)
      <-> throws (BidirectionalPort T name descr))
  /\ forall input output inout,
       InputPort T name descr = mret (name, input) ->
       OutputPort T name descr = mret (name, output) ->
       BidirectionalPort T name descr = mret (name, inout) ->
       type_ input = INPUT /\ type_ output = OUTPUT /\ type_ inout = INOUT
       /\ type_info_ input = type_info_ output
       /\ type_info_ output = type_info_ inout
       /\ converter_ input = converter_ output
       /\ converter_ output = converter_ inout
       /\ description_ input = description_ output
       /\ description_ output = description_ inout
       /\ type_str_ input = type_str_ output
       /\ type_str_ output = type_str_ inout
       /\ default_value_ input = default_value_ output
       /\ default_value_ output = default_value_ inout
       /\ default_value_str_ input = default_value_str_ output
       /\ default_value_str_ output = default_value_str_ inout.
Proof.
  unfold InputPort, OutputPort, BidirectionalPort, throws.
  destruct (IsAllowedPortName name) eqn:Hname.
  - rewrite !CreatePort_allowed by exact Hname.
    split; [split; intros [e He]; discriminate He |].
    split; [split; intros [e He]; discriminate He |].
    intros input output inout [= <-] [= <-] [= <-].
    destruct (is_same_void T), (negb (String.eqb descr "")); simpl;
      repeat split.
  - unfold CreatePort. rewrite Hname.
    split; [split; intros _; eexists; reflexivity |].
    split; [split; intros _; eexists; reflexivity |].
    intros input output inout He. discriminate He.
Qed.

(* ------------------------------------------------------------------ *)
(** *** A [providedPorts] of another type *)

(** X15. A node type whose [providedPorts()] is well-formed but does
    not have the type [PortsList] is treated as one that declares
    none: the trait is false and [getProvidedPorts] returns the empty
    list, without calling anything. *)
Theorem getProvidedPorts_other_return_type (T : NodeClass) (returned : CppType) :
  providedPorts_member T = MemberOfOtherType returned ->
  has_static_method_providedPorts T = false
  /\ getProvidedPorts T = Some (mret ∅).
Proof.
  intros Hmember.
  unfold getProvidedPorts, getProvidedPorts_declared, getProvidedPorts_empty,
    has_static_method_providedPorts, enable_if, enable_if_not.
  rewrite Hmember. split; reflexivity.
Qed.

End BasicTypes.

(* ================================================================== *)
(** ** The theorems at concrete inputs *)

Lemma enum_text_roundtrip_witness :
  throws (convertFromString_NodeStatus "idle")
  /\ "RUNNING" = toStr_NodeStatus RUNNING.
Proof.
  destruct enum_text_roundtrip as [(_ & _ & _ & Hexact & Hunknown) _].
  split.
  - apply Hunknown. intros []; discriminate.
  - apply Hexact. reflexivity.
Defined.

Lemma missing_specialization_witness :
  (exists what,
     outcome (convertFromString sample Pose2D "1;2") = Thrown (LogicError what)
     /\ mentions what "Pose2D")
  /\ (exists what,
        toStr sample Pose2D [] = mthrow (LogicError what)
        /\ mentions what "Pose2D")
  /\ toStr sample (TArith Int) 42%Z = mret "42".
Proof.
  destruct (missing_specialization sample Pose2D Int) as (Hparse & Hthrow & Hprint).
  split; [| split].
  - apply Hparse. not_specialized.
  - apply Hthrow; [not_specialized | reflexivity].
  - apply Hprint. not_specialized.
Defined.

Lemma setDefaultValue_never_fails_witness :
  let after := setDefaultValue sample (PortInfo_untyped INOUT) Pose2D [] in
  after.2 = mret tt
  /\ defaultValue after.1 = Any_from Pose2D []
  /\ defaultValueString after.1 = "".
Proof.
  destruct (setDefaultValue_never_fails sample (PortInfo_untyped INOUT) Pose2D [])
    as (Hquiet & Hstored & _ & _ & Hempty).
  split; [exact Hquiet |]. split; [exact Hstored |].
  apply Hempty; [eexists; reflexivity | reflexivity].
Defined.

(** C3, as stated, fails: on a port that already holds the text "42" of
    an earlier default, a default of a type that cannot be rendered
    leaves that text in place. *)
Lemma setDefaultValue_keeps_earlier_text :
  ~ (forall (p : PortInfo) (T : CppType) (value : cpp_value T),
       throws (toStr sample T value) ->
       defaultValueString (setDefaultValue sample p T value).1 = "").
Proof.
  intros Hclaim.
  pose (p := (setDefaultValue sample
                (PortInfo_typed sample INPUT (typeid (TArith Int))
                   (GetAnyFromStringFunctor sample (TArith Int)))
                (TArith Int) 42%Z).1).
  specialize (Hclaim p Pose2D []).
  assert (throws (toStr sample Pose2D [])) as Hthrows
    by (eexists; reflexivity).
  specialize (Hclaim Hthrows). vm_compute in Hclaim. discriminate Hclaim.
Qed.

Lemma getProvidedPorts_discovery_witness :
  (exists ports, getProvidedPorts (SaySomething sample) = Some (mret ports)
                 /\ dom ports = {[ "message" ]})
  /\ getProvidedPorts AlwaysSuccess = Some (mret ∅).
Proof.
  split.
  - eexists. split.
    + apply (proj1 (getProvidedPorts_discovery (SaySomething sample))).
      reflexivity.
    + simpl. rewrite dom_singleton_L. reflexivity.
  - apply (proj1 (proj2 (getProvidedPorts_discovery AlwaysSuccess))).
    reflexivity.
Defined.

Lemma parseString_generic_is_empty_witness :
  parseString sample (PortInfo_untyped INPUT) (TArith Int) 42%Z = mret Any_empty.
Proof.
  apply (parseString_generic_is_empty sample (PortInfo_untyped INPUT)
           (TArith Int) 42%Z); discriminate.
Defined.

(* ================================================================== *)
(** ** Two runs *)

(** [auto port = InputPort<int>("speed", 42, "");] followed by
    [port.second.setDefaultValue(Pose2D{});]: the second call returns,
    the typed default is the pose, and the text is still "42". *)
Example earlier_text_run :
  exists p,
    InputPort_with_default sample (TArith Int) "speed" 42%Z "" = mret ("speed", p)
    /\ defaultValueString p = "42"
    /\ throws (toStr sample Pose2D [])
    /\ (setDefaultValue sample p Pose2D []).2 = mret tt
    /\ defaultValue (setDefaultValue sample p Pose2D []).1 = Any_of Pose2D []
    /\ defaultValueString (setDefaultValue sample p Pose2D []).1 = "42".
Proof.
  eexists. split; [reflexivity |]. split; [reflexivity |].
  split; [eexists; reflexivity |]. repeat split.
Qed.

(** [CreatePort(PortDirection::INPUT, "speed")], with the default type
    argument: the converter of the port is there, and throws. *)
Example default_type_port_run :
  exists info conv,
    CreatePort sample CreatePort_default_type INPUT "speed" ""
    = mret ("speed", info)
    /\ isStronglyTyped info = false
    /\ converter info = Some conv
    /\ outcome (conv "42")
       = Thrown (LogicError
                   ("You didn't implement the template specialization of "
                    +:+ "convertFromString for this type: "
                    +:+ "BT::PortInfo::AnyTypeAllowed"))
    /\ (exists untyped,
          InputPort sample Port_default_type "speed" "" = mret ("speed", untyped)
          /\ isStronglyTyped untyped = false
          /\ converter untyped = None).
Proof.
  eexists _, _. split; [reflexivity |]. split; [reflexivity |].
  split; [reflexivity |]. split; [reflexivity |].
  eexists. repeat split.
Qed.

(* ================================================================== *)
(** ** The further properties at concrete inputs *)

Lemma converter_empty_only_at_void_witness :
  (is_constructible_StringView TStdString = true
   /\ Any_from TStringView "7" = Any_from TStringView "7")
  \/ (is_constructible_StringView TStdString = false
      /\ exists v, Any_from TStringView "7" = Any_from TStdString v).
Proof.
  apply (proj2 (converter_empty_only_at_void sample TStdString)
           (fun str => mret (Any_from TStringView str)) "7"
           (Any_from TStringView "7"));
    reflexivity.
Defined.

Lemma text_like_converter_keeps_text_witness :
  exists conv,
    GetAnyFromStringFunctor sample TStdString = Some conv
    /\ forall str, conv str = mret (Any_from TStringView str).
Proof. apply (text_like_converter_keeps_text sample TStdString). reflexivity. Defined.

Lemma converter_follows_parser_witness :
  exists conv,
    GetAnyFromStringFunctor sample (TArith Int) = Some conv
    /\ outcome (conv "abc")
       = Thrown (RuntimeError "convertFromString(): not a number").
Proof.
  destruct (converter_follows_parser sample (TArith Int)) as (conv & Hconv & Hrun);
    [discriminate | reflexivity |].
  exists conv. split; [exact Hconv |].
  apply (proj2 (proj2 (Hrun "abc"))). reflexivity.
Defined.


Lemma unspecialized_port_converter_throws_witness :
  exists conv,
    converter (PortInfo_typed sample INPUT (typeid Pose2D)
                 (GetAnyFromStringFunctor sample Pose2D)) = Some conv
    /\ forall str, exists what,
         outcome (conv str) = Thrown (LogicError what)
         /\ mentions what "Pose2D".
Proof.
  apply (unspecialized_port_converter_throws sample Pose2D INPUT "goal" "");
    [discriminate | reflexivity | not_specialized | reflexivity].
Defined.

Lemma toStr_throws_iff_witness :
  throws (toStr sample TStringView "text")
  /\ ~ throws (toStr sample (TArith Long) 7%Z).
Proof.
  split.
  - apply (proj1 (toStr_throws_iff sample TStringView "text")).
    split; [not_specialized | reflexivity].
  - intros Hthrows.
    apply (proj1 (toStr_throws_iff sample (TArith Long) 7%Z)) in Hthrows.
    destruct Hthrows as [_ Harith]. discriminate Harith.
Defined.

Lemma setDefaultValue_last_rendered_wins_witness :
  setDefaultValue sample
    (setDefaultValue sample (PortInfo_untyped INPUT) Pose2D []).1
    (TArith Int) 42%Z
  = setDefaultValue sample (PortInfo_untyped INPUT) (TArith Int) 42%Z.
Proof.
  apply (setDefaultValue_last_rendered_wins sample (PortInfo_untyped INPUT)
           Pose2D (TArith Int) [] 42%Z "42").
  reflexivity.
Defined.

Lemma CreatePort_typing_witness :
  isStronglyTyped
    (PortInfo_typed sample OUTPUT (typeid (TArith Double))
       (GetAnyFromStringFunctor sample (TArith Double))) = true.
Proof.
  apply (proj1 (CreatePort_typing sample (TArith Double) OUTPUT "speed" ""
                  _ eq_refl)).
  split; discriminate.
Defined.

Lemma CreatePort_fresh_port_witness :
  description_
    (setDescription
       (PortInfo_typed sample OUTPUT (typeid (TArith Double))
          (GetAnyFromStringFunctor sample (TArith Double)))
       "metres per second")
  = "metres per second".
Proof.
  apply (CreatePort_fresh_port sample (TArith Double) OUTPUT "speed"
           "metres per second" _ eq_refl).
Defined.

Lemma ports_with_default_witness :
  exists input,
    InputPort_with_default sample Pose2D "goal" [] "" = mret ("goal", input)
    /\ default_value_ input = Any_from Pose2D []
    /\ default_value_str_ input = "".
Proof.
  destruct (ports_with_default sample Pose2D "goal" [] "")
    as [([e He] & _) | (_ & input & inout & Hin & _ & _ & _ & Hvalue & _ & _ & Hnone)].
  - discriminate He.
  - exists input. split; [exact Hin |]. split; [exact Hvalue |].
    apply Hnone. eexists. reflexivity.
Defined.

Lemma port_factories_differ_in_direction_witness :
  type_ (PortInfo_untyped INPUT) = INPUT
  /\ converter_ (PortInfo_untyped INPUT) = converter_ (PortInfo_untyped OUTPUT).
Proof.
  destruct (proj2 (proj2 (port_factories_differ_in_direction sample TVoid
                            "speed" ""))
              (PortInfo_untyped INPUT) (PortInfo_untyped OUTPUT)
              (PortInfo_untyped INOUT) eq_refl eq_refl eq_refl)
    as (Hin & _ & _ & _ & _ & Hconv & _).
  split; [exact Hin | exact Hconv].
Defined.

Lemma getProvidedPorts_other_return_type_witness :
  getProvidedPorts
    (MkNodeClass "ByReference"
       (MemberOfOtherType _ (TClass "PortsList const&" false))
       (NoSuchMember _))
  = Some (mret ∅).
Proof.
  apply (getProvidedPorts_other_return_type
           (MkNodeClass "ByReference"
              (MemberOfOtherType _ (TClass "PortsList const&" false))
              (NoSuchMember _))
           (TClass "PortsList const&" false)).
  reflexivity.
Defined.
